(** * Rotary-encoder block family: schema registry and Python emitters

    Shallow embedding of [definition.js]: the five [Blockly.Blocks[...]]
    schema entries, the load-time [addReservedWords] call and the five
    [Blockly.Python[...]] generator functions, together with the small part
    of the Blockly host they talk to (field lookup, child-code resolution,
    the [definitions_] object and the reserved-word string). *)

From Stdlib Require Import String Ascii List ZArith Bool Lia.
From Stdlib Require Import Numbers.DecimalString.
Import ListNotations.
Open Scope string_scope.

(** ** JavaScript values used by the file *)

(** The line break written ['\n'] in the source. *)
Definition LF : string := String "010"%char "".

(** [s + v] where [v] may be [null]: JavaScript prints [null] as the text
    [null] when it is concatenated to a string. *)
Definition js_str (v : option string) : string :=
  match v with
  | Some s => s
  | None => "null"
  end.

(** A JavaScript object used as a string-keyed table.  Property order is
    insertion order, and assigning to an existing key keeps its place. *)
Definition JsObject (A : Type) : Type := list (string * A).

Fixpoint js_get {A} (o : JsObject A) (key : string) : option A :=
  match o with
  | [] => None
  | (k, v) :: rest => if String.eqb k key then Some v else js_get rest key
  end.

(** [o[key] = v] *)
Fixpoint js_set {A} (o : JsObject A) (key : string) (v : A) : JsObject A :=
  match o with
  | [] => [(key, v)]
  | (k, w) :: rest =>
      if String.eqb k key then (k, v) :: rest else (k, w) :: js_set rest key v
  end.

Definition js_keys {A} (o : JsObject A) : list string := map fst o.

(** [s.split(sep)] for a one-character separator. *)
Fixpoint js_split (sep : ascii) (s : string) : list string :=
  match s with
  | "" => [""]
  | String c rest =>
      if Ascii.eqb c sep then "" :: js_split sep rest
      else match js_split sep rest with
           | [] => [String c ""]
           | w :: ws => String c w :: ws
           end
  end.

(** ** The host's block object, as far as [init] touches it

    [Blockly.Blocks[type].init] runs with [this] bound to a fresh block and
    builds its shape through the host's methods.  The shape is threaded
    explicitly; a chained call such as [.appendField(...)] acts on the input
    that was appended last, which is the object the chain started from. *)

Inductive Field : Type :=
  | FieldLabel (text : string)
  | FieldDropdown (options : list (string * string)).

Inductive InputType : Type := DUMMY_INPUT | INPUT_VALUE.

(** A connection check: [None] is JavaScript [null] (anything connects). *)
Definition Check : Type := option string.

Record Input : Type := mkInput {
  input_type : InputType;
  input_name : string;
  input_check : Check;
  fieldRow : list (Field * option string)
}.

Record BlockShape : Type := mkShape {
  inputList : list Input;
  previousConnection : option Check;
  nextConnection : option Check;
  outputConnection : option Check;
  colour : string;
  tooltip : string;
  helpUrl : string
}.

Definition new_block : BlockShape :=
  mkShape [] None None None "" "" "".

Definition set_inputList (l : list Input) (this : BlockShape) : BlockShape :=
  mkShape l (previousConnection this) (nextConnection this)
    (outputConnection this) (colour this) (tooltip this) (helpUrl this).

Fixpoint on_last {A} (f : A -> A) (l : list A) : list A :=
  match l with
  | [] => []
  | [x] => [f x]
  | x :: rest => x :: on_last f rest
  end.

Definition appendDummyInput (this : BlockShape) : BlockShape :=
  set_inputList (inputList this ++ [mkInput DUMMY_INPUT "" None []])%list this.

Definition appendValueInput (name : string) (this : BlockShape) : BlockShape :=
  set_inputList (inputList this ++ [mkInput INPUT_VALUE name None []]) this.

Definition setCheck (check : Check) (this : BlockShape) : BlockShape :=
  set_inputList
    (on_last (fun i => mkInput (input_type i) (input_name i) check (fieldRow i))
       (inputList this)) this.

Definition appendField (field : Field) (name : option string)
    (this : BlockShape) : BlockShape :=
  set_inputList
    (on_last (fun i => mkInput (input_type i) (input_name i) (input_check i)
                         (fieldRow i ++ [(field, name)]))
       (inputList this)) this.

Definition setPreviousStatement (newBoolean : bool) (check : Check)
    (this : BlockShape) : BlockShape :=
  mkShape (inputList this) (if newBoolean then Some check else None)
    (nextConnection this) (outputConnection this)
    (colour this) (tooltip this) (helpUrl this).

Definition setNextStatement (newBoolean : bool) (check : Check)
    (this : BlockShape) : BlockShape :=
  mkShape (inputList this) (previousConnection this)
    (if newBoolean then Some check else None) (outputConnection this)
    (colour this) (tooltip this) (helpUrl this).

Definition setOutput (newBoolean : bool) (check : Check)
    (this : BlockShape) : BlockShape :=
  mkShape (inputList this) (previousConnection this) (nextConnection this)
    (if newBoolean then Some check else None)
    (colour this) (tooltip this) (helpUrl this).

Definition setColour (c : string) (this : BlockShape) : BlockShape :=
  mkShape (inputList this) (previousConnection this) (nextConnection this)
    (outputConnection this) c (tooltip this) (helpUrl this).

Definition setTooltip (t : string) (this : BlockShape) : BlockShape :=
  mkShape (inputList this) (previousConnection this) (nextConnection this)
    (outputConnection this) (colour this) t (helpUrl this).

Definition setHelpUrl (u : string) (this : BlockShape) : BlockShape :=
  mkShape (inputList this) (previousConnection this) (nextConnection this)
    (outputConnection this) (colour this) (tooltip this) u.

(** [this.getField(name)] restricted to dropdowns: the option list of the
    dropdown registered under [name], searching the inputs in order. *)
Fixpoint dropdown_in_row (row : list (Field * option string)) (name : string)
    : option (list (string * string)) :=
  match row with
  | [] => None
  | (FieldDropdown options, Some n) :: rest =>
      if String.eqb n name then Some options else dropdown_in_row rest name
  | _ :: rest => dropdown_in_row rest name
  end.

Fixpoint dropdown_in_inputs (l : list Input) (name : string)
    : option (list (string * string)) :=
  match l with
  | [] => None
  | i :: rest =>
      match dropdown_in_row (fieldRow i) name with
      | Some options => Some options
      | None => dropdown_in_inputs rest name
      end
  end.

Definition getOptions (this : BlockShape) (name : string)
    : option (list (string * string)) :=
  dropdown_in_inputs (inputList this) name.

(** Statements of an [init] body run top to bottom on [this]. *)
Notation "this |> f" := (f this) (at level 50, left associativity, only parsing).

(** ** Block Schema Registry: [Blockly.Blocks[...]]

    The colour is written [#A39400] without quotes in the source; it is
    decoration only and is kept as that text. *)

Module Blocks.

(** The sixteen-entry pin list is written out twice in the source, once per
    dropdown; both literals are kept. *)
Definition initialise_rotary_encoder (this : BlockShape) : BlockShape :=
  this
  |> appendDummyInput
  |> appendField (FieldLabel "khởi tạo encoder CLK") None
  |> appendField (FieldDropdown [("P0","pin0.pin"); ("P1","pin1.pin"); ("P2","pin2.pin"); ("P3","pin3.pin"); ("P4","pin4.pin"); ("P6","pin6.pin");("P7","pin7.pin"); ("P8","pin8.pin"); ("P9","pin9.pin"); ("P10","pin10.pin"); ("P11","pin11.pin"); ("P12","pin12.pin"); ("P13","pin13.pin"); ("P14","pin14.pin"); ("P15","pin15.pin"); ("P16","pin16.pin")]) (Some "clk")
  |> appendField (FieldLabel "DT") None
  |> appendField (FieldDropdown [("P0","pin0.pin"); ("P1","pin1.pin"); ("P2","pin2.pin"); ("P3","pin3.pin"); ("P4","pin4.pin"); ("P6","pin6.pin");("P7","pin7.pin"); ("P8","pin8.pin"); ("P9","pin9.pin"); ("P10","pin10.pin"); ("P11","pin11.pin"); ("P12","pin12.pin"); ("P13","pin13.pin"); ("P14","pin14.pin"); ("P15","pin15.pin"); ("P16","pin16.pin")]) (Some "dt")
  |> setPreviousStatement true None
  |> setNextStatement true None
  |> setColour "#A39400"
  |> setTooltip ""
  |> setHelpUrl "".

Definition get_value (this : BlockShape) : BlockShape :=
  this
  |> appendDummyInput
  |> appendField (FieldLabel "đọc giá trị encoder") None
  |> setOutput true (Some "Number")
  |> setColour "#A39400"
  |> setTooltip ""
  |> setHelpUrl "".

Definition set_range_value (this : BlockShape) : BlockShape :=
  this
  |> appendValueInput "min"
  |> setCheck None
  |> appendField (FieldLabel "đặt khoảng giá trị cho encoder min") None
  |> appendDummyInput
  |> appendValueInput "max"
  |> setCheck None
  |> appendField (FieldLabel "max") None
  |> setPreviousStatement true None
  |> setNextStatement true None
  |> setColour "#A39400"
  |> setTooltip ""
  |> setHelpUrl "".

Definition rotary_mode (this : BlockShape) : BlockShape :=
  this
  |> appendDummyInput
  |> appendField (FieldLabel "đặt chế độ xoay cho rotary") None
  |> appendField (FieldDropdown [("không giới hạn"," RotaryIRQ.RANGE_UNBOUNDED"); ("reset khi quay tới max","RotaryIRQ.RANGE_WRAP"); ("dừng tăng khi quay tới max","RotaryIRQ.RANGE_BOUNDED")]) (Some "mode")
  |> setPreviousStatement true None
  |> setNextStatement true None
  |> setColour "#A39400"
  |> setTooltip ""
  |> setHelpUrl "".

Definition set_current_value (this : BlockShape) : BlockShape :=
  this
  |> appendValueInput "value"
  |> setCheck None
  |> appendField (FieldLabel "đặt giá trị hiện tại cho encoder") None
  |> setPreviousStatement true None
  |> setNextStatement true None
  |> setColour "#A39400"
  |> setTooltip ""
  |> setHelpUrl "".

End Blocks.

(** The table [Blockly.Blocks] after the five assignments, in source order. *)
Definition Blockly_Blocks : JsObject (BlockShape -> BlockShape) :=
  js_set (js_set (js_set (js_set (js_set []
    "initialise_rotary_encoder" Blocks.initialise_rotary_encoder)
    "get_value" Blocks.get_value)
    "set_range_value" Blocks.set_range_value)
    "rotary_mode" Blocks.rotary_mode)
    "set_current_value" Blocks.set_current_value.

(** The shape the host obtains for a block of the given type. *)
Definition getSchema (type : string) : option BlockShape :=
  match js_get Blockly_Blocks type with
  | Some init => Some (init new_block)
  | None => None
  end.

(** ** The host's Python generator, as far as the emitters touch it *)

(** The mutable part of [Blockly.Python]: the [definitions_] object that
    collects one-time preamble text under a key, and the comma-separated
    string of reserved words. *)
Record Generator : Type := mkGenerator {
  definitions_ : JsObject string;
  RESERVED_WORDS_ : string
}.

(** Operator-strength tags of the host's Python generator.  A tag is a
    number; only its integer class matters to [valueToCode].  [ORDER_ATOMIC]
    is 0 (binds tightest), [ORDER_NONE] is 99 (binds weakest). *)
Definition Order : Type := Z.

(** A block instance during a generation pass: its type, the current value
    of each named field, and for each connected value input what the
    generator of the connected block returned (code and strength tag). *)
Record Block : Type := mkBlock {
  type : string;
  fields : JsObject string;
  inputTargets : JsObject (string * Order)
}.

(** [block.getFieldValue(name)]: the field's value, [null] without such a
    field. *)
Definition getFieldValue (block : Block) (name : string) : option string :=
  js_get (fields block) name.

(** What a generator function returns: a string for a statement block, a
    two-element array [[code, order]] for a value block. *)
Inductive Emitted : Type :=
  | Statement (code : string)
  | Expression (code : string) (order : Order).

Definition code_of (e : Emitted) : string :=
  match e with
  | Statement code => code
  | Expression code _ => code
  end.

Module Python.

Definition ORDER_ATOMIC : Order := 0%Z.
Definition ORDER_NONE : Order := 99%Z.

(** Modelled from the spec: the host's [generateChildCode], which returns
    the child's code "already parenthesized if the child's precedence is
    lower than minPrecedence".  The test is written as the host's generator
    has it on the tags: wrap when the outer tag is not above the inner one,
    except for an atomic child in an atomic slot and a tagless child in a
    tagless slot.  The host's table of further exceptions has no entry whose
    outer tag is [ORDER_ATOMIC], the only outer tag this file passes, nor one
    whose inner tag is [ORDER_NONE], and is left out. *)
Definition parensNeeded (outerOrder innerOrder : Order) : bool :=
  (outerOrder <=? innerOrder)%Z &&
  negb ((outerOrder =? innerOrder)%Z &&
        ((outerOrder =? 0)%Z || (outerOrder =? 99)%Z)).

(** [Blockly.Python.valueToCode(block, name, outerOrder)]: the empty string
    when nothing is connected or the child produced no code, otherwise the
    child's code, parenthesised when needed.  The host runs the child's
    generator inside this call; here the child has been resolved beforehand
    and only its result is looked up, so whatever the child writes to the
    generator (a definition of its own, say) is outside this model: of an
    emitter that calls [valueToCode] the text is modelled, the state it
    returns is the state before its children ran. *)
Definition valueToCode (block : Block) (name : string) (outerOrder : Order)
    : string :=
  match js_get (inputTargets block) name with
  | None => ""
  | Some (code, innerOrder) =>
      if String.eqb code "" then ""
      else if parensNeeded outerOrder innerOrder then "(" ++ code ++ ")"
      else code
  end.

(** [Blockly.Python.addReservedWords(words)] *)
Definition addReservedWords (words : string) (G : Generator) : Generator :=
  mkGenerator (definitions_ G) (RESERVED_WORDS_ G ++ words ++ ",").

(** [Blockly.Python.definitions_[key] = text] *)
Definition set_definition (key text : string) (G : Generator) : Generator :=
  mkGenerator (js_set (definitions_ G) key text) (RESERVED_WORDS_ G).

(** *** Code Emitter Registry: [Blockly.Python[...]] *)

Definition initialise_rotary_encoder (G : Generator) (block : Block)
    : Generator * Emitted :=
  let G := set_definition "import_rotary" "from rotary import RotaryIRQ" G in
  let dropdown_clk := getFieldValue block "clk" in
  let dropdown_dt := getFieldValue block "dt" in
  let code := "rotary_encoder = RotaryIRQ(pin_num_clk=" ++ js_str dropdown_clk ++ ", pin_num_dt=" ++ js_str dropdown_dt ++ ", min_val=0, max_val=10, reverse=True, range_mode=RotaryIRQ.RANGE_UNBOUNDED, pull_up=False)" ++ LF in
  (G, Statement code).

Definition get_value (G : Generator) (block : Block) : Generator * Emitted :=
  let code := "rotary_encoder.value()" in
  (G, Expression code ORDER_NONE).

Definition set_range_value (G : Generator) (block : Block)
    : Generator * Emitted :=
  let value_min := valueToCode block "min" ORDER_ATOMIC in
  let value_max := valueToCode block "max" ORDER_ATOMIC in
  let code := "rotary_encoder.set(min_val=" ++ value_min ++ ", max_val=" ++ value_max ++ ", range_mode=RotaryIRQ.RANGE_WRAP)" ++ LF in
  (G, Statement code).

Definition rotary_mode (G : Generator) (block : Block) : Generator * Emitted :=
  let dropdown_mode := getFieldValue block "mode" in
  let code := "rotary_encoder.set(range_mode=" ++ js_str dropdown_mode ++ ")" ++ LF in
  (G, Statement code).

Definition set_current_value (G : Generator) (block : Block)
    : Generator * Emitted :=
  let value_value := valueToCode block "value" ORDER_ATOMIC in
  let code := "rotary_encoder.set(value=" ++ value_value ++ ")" ++ LF in
  (G, Statement code).

End Python.

Definition Emitter : Type := Generator -> Block -> Generator * Emitted.

(** The generator functions stored on [Blockly.Python], in source order. *)
Definition Blockly_Python : JsObject Emitter :=
  js_set (js_set (js_set (js_set (js_set []
    "initialise_rotary_encoder" Python.initialise_rotary_encoder)
    "get_value" Python.get_value)
    "set_range_value" Python.set_range_value)
    "rotary_mode" Python.rotary_mode)
    "set_current_value" Python.set_current_value.

(** What loading the file does to the generator's state: the one top-level
    statement with an effect on it is [addReservedWords('rotary')]. *)
Definition module_load (G : Generator) : Generator :=
  Python.addReservedWords "rotary" G.

(** The words the host's name allocator reads out of [RESERVED_WORDS_]: the
    pieces between commas, the empty ones left after a final comma put
    aside. *)
Definition reservedWords (G : Generator) : list string :=
  filter (fun w => negb (String.eqb w "")) (js_split "," (RESERVED_WORDS_ G)).

(** ** Generation pass *)


(** Modelled from the spec: the host's chaining of statement blocks.
    "Statement fragments from a sequence of chained blocks are concatenated
    in declaration order, each terminated by its own line break, with no
    inserted separators."  A type without a generator function is the
    [UnknownBlockKind] failure; a value block has no statement connections
    and cannot sit in a chain. *)
Fixpoint chainToCode (G : Generator) (blocks : list Block)
    : option (Generator * string) :=
  match blocks with
  | [] => Some (G, "")
  | block :: rest =>
      match js_get Blockly_Python (type block) with
      | None => None
      | Some emit =>
          match emit G block with
          | (_, Expression _ _) => None
          | (G1, Statement code) =>
              match chainToCode G1 rest with
              | None => None
              | Some (G2, nextCode) => Some (G2, code ++ nextCode)
              end
          end
      end
  end.




(** ** Reading emitted text *)

Definition is_identifier_char (c : ascii) : bool :=
  let n := nat_of_ascii c in
  (((65 <=? n) && (n <=? 90)) || ((97 <=? n) && (n <=? 122))
   || ((48 <=? n) && (n <=? 57)) || (n =? 95))%nat.

(** The identifier a fragment starts with. *)
Fixpoint leading_identifier (s : string) : string :=
  match s with
  | "" => ""
  | String c rest =>
      if is_identifier_char c then String c (leading_identifier rest) else ""
  end.

Fixpoint count_char (c : ascii) (s : string) : nat :=
  match s with
  | "" => 0
  | String d rest => (if Ascii.eqb d c then 1 else 0) + count_char c rest
  end.

Definition newline_free (s : string) : Prop := count_char "010" s = 0.

Fixpoint ends_with_LF (s : string) : bool :=
  match s with
  | "" => false
  | String c "" => Ascii.eqb c "010"
  | String _ rest => ends_with_LF rest
  end.

(** The block kinds of the registry that are chained as statements: those
    whose shape has a previous-statement connection. *)
Definition is_statement_kind (type : string) : bool :=
  match getSchema type with
  | Some shape =>
      match previousConnection shape with Some _ => true | None => false end
  | None => false
  end.

(** Every value a block hands to its emitter is free of line breaks. *)
Definition newline_free_block (block : Block) : Prop :=
  Forall (fun kv => newline_free (snd kv)) (fields block) /\
  Forall (fun kv => newline_free (fst (snd kv))) (inputTargets block).

(** The pin list by rule rather than by enumeration: label [P<n>] and value
    [pin<n>.pin] for n = 0..4 and 6..16. *)
Definition decimal (n : nat) : string :=
  NilEmpty.string_of_uint (Nat.to_uint n).

Definition pin_option (n : nat) : string * string :=
  ("P" ++ decimal n, "pin" ++ decimal n ++ ".pin").

Definition pin_numbers : list nat := seq 0 5 ++ seq 6 11.

Definition pin_options : list (string * string) := map pin_option pin_numbers.

(** ** What a schema declares, and blocks that fit it *)

(** The names under which a shape registers dropdowns, in order. *)
Definition row_dropdown_names (row : list (Field * option string))
    : list string :=
  flat_map (fun fn => match fn with
                      | (FieldDropdown _, Some n) => [n]
                      | _ => []
                      end) row.

Definition dropdown_names (this : BlockShape) : list string :=
  flat_map (fun i => row_dropdown_names (fieldRow i)) (inputList this).

(** The names of a shape's value inputs, in order. *)
Definition value_input_names (this : BlockShape) : list string :=
  flat_map (fun i => match input_type i with
                     | INPUT_VALUE => [input_name i]
                     | DUMMY_INPUT => []
                     end) (inputList this).

(** A block fits a shape when each dropdown of the shape holds the encoded
    value of one of its options, as a dropdown of the host always does. *)
Definition valid_selection (this : BlockShape) (block : Block) : Prop :=
  forall name, In name (dropdown_names this) ->
    exists options v,
      getOptions this name = Some options /\
      getFieldValue block name = Some v /\
      In v (map snd options).

(** How a slot asking for [ORDER_ATOMIC] receives a child's code. *)
Definition wrap_atomic (code : string) (innerOrder : Order) : string :=
  if (innerOrder =? 0)%Z then code else "(" ++ code ++ ")".

(** Nesting depth of round brackets after reading [s] from depth [d];
    [None] when a bracket closes that was never opened. *)
Fixpoint paren_depth (d : nat) (s : string) : option nat :=
  match s with
  | "" => Some d
  | String c rest =>
      if Ascii.eqb c "(" then paren_depth (S d) rest
      else if Ascii.eqb c ")" then
             match d with
             | 0 => None
             | S d' => paren_depth d' rest
             end
      else paren_depth d rest
  end.

Definition balanced (s : string) : Prop := paren_depth 0 s = Some 0.

Definition balanced_block (block : Block) : Prop :=
  Forall (fun kv => balanced (snd kv)) (fields block) /\
  Forall (fun kv => balanced (fst (snd kv))) (inputTargets block).

(** SetValue with a foreign addition plugged into its input: code [a + b]
    with the additive tag 6 of the host. *)
Definition set_from_sum : Block :=
  mkBlock "set_current_value" [] [("value", ("a + b", 6%Z))].

Definition preloaded : Generator :=
  mkGenerator [("import_machine", "import machine")] "print,".

(** Concrete inputs used in the examples below. *)
Definition G0 : Generator := mkGenerator [] "".

Definition scenario_A : Block :=
  mkBlock "initialise_rotary_encoder" [("clk", "pin0.pin"); ("dt", "pin1.pin")] [].

Definition scenario_B : Block := mkBlock "get_value" [] [].

Definition scenario_C : Block :=
  mkBlock "set_range_value" [] [("min", ("0", 0%Z)); ("max", ("100", 0%Z))].

Definition scenario_D : Block :=
  mkBlock "rotary_mode" [("mode", "RotaryIRQ.RANGE_WRAP")] [].

Definition unbounded_mode : Block :=
  mkBlock "rotary_mode" [("mode", " RotaryIRQ.RANGE_UNBOUNDED")] [].

(** SetValue with a ReadValue block plugged into its [value] input. *)
Definition set_from_read : Block :=
  mkBlock "set_current_value" []
    [("value", match snd (Python.get_value G0 scenario_B) with
               | Expression code order => (code, order)
               | Statement code => (code, Python.ORDER_NONE)
               end)].

(** Case analysis on a lookup by a type that is not known. *)
Ltac by_kind type :=
  cbn [js_get];
  repeat match goal with
         | |- context [String.eqb ?k type] =>
             destruct (String.eqb_spec k type); [subst type|]
         end.

(** SetValue with a multi-line text plugged in, as the host's multi-line
    text block generates it: two quoted lines joined by [+], the second on a
    line of its own; additive tag 6. *)
Definition set_from_multiline : Block :=
  mkBlock "set_current_value" []
    [("value", ("'a' + '\n' +" ++ LF ++ "'b'", 6%Z))].

(** An InitEncoder block that has its clk field and no dt field. *)
Definition clk_only : Block :=
  mkBlock "initialise_rotary_encoder" [("clk", "pin0.pin")] [].

(** Pairwise difference of the strings of a written-out list. *)
Ltac nodup_strings :=
  cbn;
  repeat (constructor;
          [cbn; intros H;
           repeat (destruct H as [H|H]; [discriminate H|]); exact H|]);
  constructor.

(** * Properties *)

(** ** Strings and tables *)

Lemma count_char_app (c : ascii) (s t : string) :
  count_char c (s ++ t) = count_char c s + count_char c t.
Proof.
  induction s as [|d s IH]; simpl; [reflexivity|].
  rewrite IH. lia.
Qed.

Lemma append_assoc (s t u : string) : (s ++ t) ++ u = s ++ (t ++ u).
Proof.
  induction s as [|c s IH]; simpl; [reflexivity|]. now rewrite IH.
Qed.

Lemma js_split_nonempty (sep : ascii) (s : string) : js_split sep s <> [].
Proof.
  destruct s as [|c s]; simpl; [discriminate|].
  destruct (Ascii.eqb c sep); [discriminate|].
  destruct (js_split sep s); discriminate.
Qed.

(** Splitting distributes over a separator in the middle. *)
Lemma js_split_app_sep (sep : ascii) (s t : string) :
  js_split sep (s ++ String sep t) = (js_split sep s ++ js_split sep t)%list.
Proof.
  induction s as [|c s IH]; simpl.
  - rewrite Ascii.eqb_refl. reflexivity.
  - destruct (Ascii.eqb c sep); [now rewrite IH|].
    rewrite IH.
    destruct (js_split sep s) as [|w ws] eqn:E; [|reflexivity].
    now apply js_split_nonempty in E.
Qed.

(** A piece without the separator is returned whole. *)
Lemma js_split_free (sep : ascii) (s : string) :
  count_char sep s = 0 -> js_split sep s = [s].
Proof.
  induction s as [|c s IH]; simpl; [reflexivity|].
  destruct (Ascii.eqb c sep); [discriminate|].
  intros H. now rewrite IH.
Qed.

Lemma js_split_lines (lines : list string) :
  Forall newline_free lines ->
  js_split "010" (String.concat "" (map (fun l => l ++ LF) lines))
  = (lines ++ [""])%list.
Proof.
  induction 1 as [|l lines Hl _ IH]; [reflexivity|].
  assert (E : String.concat "" (map (fun l => l ++ LF) (l :: lines))
              = l ++ String "010" (String.concat "" (map (fun l => l ++ LF) lines))).
  { simpl. destruct (map (fun l0 => l0 ++ LF) lines) eqn:M.
    - reflexivity.
    - unfold LF. rewrite append_assoc. reflexivity. }
  rewrite E, js_split_app_sep, IH, (js_split_free _ _ Hl). reflexivity.
Qed.

Lemma js_set_same {A} (o : JsObject A) (key : string) (v : A) :
  js_set (js_set o key v) key v = js_set o key v.
Proof.
  induction o as [|[k w] o IH]; simpl.
  - now rewrite String.eqb_refl.
  - destruct (String.eqb k key) eqn:E; simpl; rewrite E; [reflexivity|].
    now rewrite IH.
Qed.

Lemma js_get_set_same {A} (o : JsObject A) (key : string) (v : A) :
  js_get (js_set o key v) key = Some v.
Proof.
  induction o as [|[k w] o IH]; simpl.
  - now rewrite String.eqb_refl.
  - destruct (String.eqb k key) eqn:E; simpl; now rewrite E.
Qed.

Lemma js_get_Forall {A} (P : A -> Prop) (o : JsObject A) (key : string) (v : A) :
  Forall (fun kv => P (snd kv)) o -> js_get o key = Some v -> P v.
Proof.
  induction 1 as [|[k w] o Hw _ IH]; simpl; [discriminate|].
  destruct (String.eqb k key); [|exact IH].
  intros [= <-]. exact Hw.
Qed.

(** ** The two registries, written out *)

Lemma Blockly_Blocks_table :
  Blockly_Blocks =
    [("initialise_rotary_encoder", Blocks.initialise_rotary_encoder);
     ("get_value", Blocks.get_value);
     ("set_range_value", Blocks.set_range_value);
     ("rotary_mode", Blocks.rotary_mode);
     ("set_current_value", Blocks.set_current_value)].
Proof. reflexivity. Qed.

Lemma Blockly_Python_table :
  Blockly_Python =
    [("initialise_rotary_encoder", Python.initialise_rotary_encoder);
     ("get_value", Python.get_value);
     ("set_range_value", Python.set_range_value);
     ("rotary_mode", Python.rotary_mode);
     ("set_current_value", Python.set_current_value)].
Proof. reflexivity. Qed.

(** Every kind has a schema entry exactly when it has an emitter. *)
Lemma registries_paired : js_keys Blockly_Blocks = js_keys Blockly_Python.
Proof. reflexivity. Qed.

Lemma emitter_cases (type : string) (emit : Emitter) :
  js_get Blockly_Python type = Some emit ->
  (type = "initialise_rotary_encoder" /\ emit = Python.initialise_rotary_encoder) \/
  (type = "get_value" /\ emit = Python.get_value) \/
  (type = "set_range_value" /\ emit = Python.set_range_value) \/
  (type = "rotary_mode" /\ emit = Python.rotary_mode) \/
  (type = "set_current_value" /\ emit = Python.set_current_value).
Proof.
  rewrite Blockly_Python_table. by_kind type; intros [= <-]; tauto.
Qed.

Lemma statement_kind_cases (type : string) :
  is_statement_kind type = true ->
  type = "initialise_rotary_encoder" \/ type = "set_range_value" \/
  type = "rotary_mode" \/ type = "set_current_value".
Proof.
  unfold is_statement_kind, getSchema. rewrite Blockly_Blocks_table.
  by_kind type; try tauto; discriminate.
Qed.

(** ** The emitters *)

(** C1. For every clk and dt selection the InitEncoder emitter returns the
    single statement
    [rotary_encoder = RotaryIRQ(pin_num_clk=<clk>, pin_num_dt=<dt>, min_val=0,
    max_val=10, reverse=True, range_mode=RotaryIRQ.RANGE_UNBOUNDED,
    pull_up=False)] followed by a line break, the two selected values put in
    as they are. *)
Theorem initialise_rotary_encoder_statement :
  forall (G : Generator) (block : Block) (clk dt : string),
    getFieldValue block "clk" = Some clk ->
    getFieldValue block "dt" = Some dt ->
    snd (Python.initialise_rotary_encoder G block) =
      Statement ("rotary_encoder = RotaryIRQ(pin_num_clk=" ++ clk
                 ++ ", pin_num_dt=" ++ dt
                 ++ ", min_val=0, max_val=10, reverse=True, range_mode=RotaryIRQ.RANGE_UNBOUNDED, pull_up=False)"
                 ++ LF).
Proof.
  intros G block clk dt Hclk Hdt.
  unfold Python.initialise_rotary_encoder.
  rewrite Hclk, Hdt. reflexivity.
Qed.

Lemma initialise_rotary_encoder_statement_witness :
  getFieldValue scenario_A "clk" = Some "pin0.pin" /\
  getFieldValue scenario_A "dt" = Some "pin1.pin" /\
  snd (Python.initialise_rotary_encoder G0 scenario_A) =
    Statement ("rotary_encoder = RotaryIRQ(pin_num_clk=pin0.pin, pin_num_dt=pin1.pin, min_val=0, max_val=10, reverse=True, range_mode=RotaryIRQ.RANGE_UNBOUNDED, pull_up=False)" ++ LF).
Proof.
  split; [reflexivity|]. split; [reflexivity|].
  apply (initialise_rotary_encoder_statement G0 scenario_A "pin0.pin" "pin1.pin");
    reflexivity.
Defined.

(** C2, as stated: the ReadValue fragment would carry the atomic tag and be
    inlined without parentheses.  It carries [ORDER_NONE], and the [value]
    slot of SetValue, which asks for atomic strength, wraps it. *)
Lemma get_value_atomic_counterexample :
  snd (Python.get_value G0 scenario_B)
    <> Expression "rotary_encoder.value()" Python.ORDER_ATOMIC /\
  Python.valueToCode set_from_read "value" Python.ORDER_ATOMIC
    <> "rotary_encoder.value()".
Proof. split; discriminate. Qed.

(** C2, amended.  For every input the ReadValue emitter returns the
    fragment [rotary_encoder.value()] with the tag [ORDER_NONE], the
    weakest-binding tag and not the atomic one; the emitter changes no state
    and adds no parentheses itself, and a caller whose slot asks for any
    strength tighter than [ORDER_NONE] -- [ORDER_ATOMIC] in SetRange and
    SetValue -- receives the fragment in parentheses. *)
Theorem get_value_expression :
  forall (G : Generator) (block parent : Block) (name : string)
         (outerOrder : Order),
    js_get (inputTargets parent) name
      = Some (code_of (snd (Python.get_value G block)), Python.ORDER_NONE) ->
    (outerOrder < Python.ORDER_NONE)%Z ->
    Python.get_value G block
      = (G, Expression "rotary_encoder.value()" Python.ORDER_NONE) /\
    Python.ORDER_NONE <> Python.ORDER_ATOMIC /\
    Python.valueToCode parent name outerOrder = "(rotary_encoder.value())" /\
    Python.valueToCode parent name Python.ORDER_NONE = "rotary_encoder.value()".
Proof.
  intros G block parent name outerOrder Hin Hlt.
  split; [reflexivity|]. split; [discriminate|].
  unfold Python.valueToCode. rewrite Hin. cbn [code_of snd Python.get_value].
  split; [|reflexivity].
  replace (Python.parensNeeded outerOrder Python.ORDER_NONE) with true;
    [reflexivity|].
  unfold Python.parensNeeded, Python.ORDER_NONE in *.
  symmetry. apply andb_true_iff. split.
  - apply Z.leb_le. lia.
  - apply negb_true_iff, andb_false_iff. left. apply Z.eqb_neq. lia.
Qed.

Lemma get_value_expression_witness :
  js_get (inputTargets set_from_read) "value"
    = Some (code_of (snd (Python.get_value G0 scenario_B)), Python.ORDER_NONE) /\
  (Python.ORDER_ATOMIC < Python.ORDER_NONE)%Z /\
  Python.valueToCode set_from_read "value" Python.ORDER_ATOMIC
    = "(rotary_encoder.value())".
Proof.
  split; [reflexivity|]. split; [reflexivity|].
  apply (get_value_expression G0 scenario_B set_from_read "value"
           Python.ORDER_ATOMIC); reflexivity.
Defined.

(** C3. For every pair of resolved min and max child expressions the
    SetRange emitter returns the single statement
    [rotary_encoder.set(min_val=<min>, max_val=<max>,
    range_mode=RotaryIRQ.RANGE_WRAP)] followed by a line break; the third
    argument is the fixed wrap constant whatever the block's fields or the
    generator's state hold. *)
Theorem set_range_value_statement :
  forall (G : Generator) (block : Block) (value_min value_max : string),
    Python.valueToCode block "min" Python.ORDER_ATOMIC = value_min ->
    Python.valueToCode block "max" Python.ORDER_ATOMIC = value_max ->
    Python.set_range_value G block =
      (G, Statement ("rotary_encoder.set(min_val=" ++ value_min
                     ++ ", max_val=" ++ value_max
                     ++ ", range_mode=RotaryIRQ.RANGE_WRAP)" ++ LF)).
Proof.
  intros G block value_min value_max <- <-. reflexivity.
Qed.

Lemma set_range_value_statement_witness :
  Python.valueToCode scenario_C "min" Python.ORDER_ATOMIC = "0" /\
  Python.valueToCode scenario_C "max" Python.ORDER_ATOMIC = "100" /\
  Python.set_range_value G0 scenario_C =
    (G0, Statement ("rotary_encoder.set(min_val=0, max_val=100, range_mode=RotaryIRQ.RANGE_WRAP)" ++ LF)).
Proof.
  split; [reflexivity|]. split; [reflexivity|].
  apply (set_range_value_statement G0 scenario_C "0" "100"); reflexivity.
Defined.

(** C4. For every mode selection the SetMode emitter returns a statement
    that is a call of [set] on the handle with the single argument
    [range_mode], whose value is the selected encoded value character for
    character. *)
Theorem rotary_mode_statement :
  forall (G : Generator) (block : Block) (mode : string),
    getFieldValue block "mode" = Some mode ->
    Python.rotary_mode G block =
      (G, Statement ("rotary_encoder.set(range_mode=" ++ mode ++ ")" ++ LF)).
Proof.
  intros G block mode Hmode.
  unfold Python.rotary_mode. rewrite Hmode. reflexivity.
Qed.

Lemma rotary_mode_statement_witness :
  getFieldValue scenario_D "mode" = Some "RotaryIRQ.RANGE_WRAP" /\
  Python.rotary_mode G0 scenario_D =
    (G0, Statement ("rotary_encoder.set(range_mode=RotaryIRQ.RANGE_WRAP)" ++ LF)).
Proof.
  split; [reflexivity|].
  apply (rotary_mode_statement G0 scenario_D "RotaryIRQ.RANGE_WRAP"); reflexivity.
Defined.

(** ** The preamble *)

(** The emitter's effect on the generator is the one assignment to
    [definitions_]; the block does not matter. *)
Lemma initialise_rotary_encoder_state (G : Generator) (block : Block) :
  fst (Python.initialise_rotary_encoder G block)
  = Python.set_definition "import_rotary" "from rotary import RotaryIRQ" G.
Proof. reflexivity. Qed.

(** Registering again changes nothing, whatever else is registered. *)
Lemma initialise_rotary_encoder_idempotent (G : Generator) (b1 b2 : Block) :
  fst (Python.initialise_rotary_encoder
         (fst (Python.initialise_rotary_encoder G b1)) b2)
  = fst (Python.initialise_rotary_encoder G b1).
Proof.
  rewrite !initialise_rotary_encoder_state. unfold Python.set_definition.
  cbn [definitions_ RESERVED_WORDS_]. now rewrite js_set_same.
Qed.





(** ** Reserved words *)

Lemma reservedWords_module_load (G : Generator) :
  RESERVED_WORDS_ G = "" \/ (exists s, RESERVED_WORDS_ G = s ++ ",") ->
  reservedWords (module_load G) = (reservedWords G ++ ["rotary"])%list.
Proof.
  unfold reservedWords, module_load, Python.addReservedWords.
  cbn [RESERVED_WORDS_].
  intros [-> | [s ->]]; [reflexivity|].
  change (s ++ ",") with (s ++ String "," "").
  rewrite append_assoc.
  change (String "," "" ++ "rotary" ++ ",") with (String "," ("rotary" ++ ",")).
  rewrite !js_split_app_sep, !filter_app. cbn. now rewrite app_nil_r.
Qed.

(** Every fragment the family emits starts with the handle name. *)
Lemma emitted_handle (type : string) (emit : Emitter) (G : Generator)
    (block : Block) :
  js_get Blockly_Python type = Some emit ->
  leading_identifier (code_of (snd (emit G block))) = "rotary_encoder".
Proof.
  intros E. apply emitter_cases in E.
  destruct E as [[_ ->]|[[_ ->]|[[_ ->]|[[_ ->]|[_ ->]]]]]; reflexivity.
Qed.

(** C6, as stated: the one word reserved at load would be the handle name
    the emitted code uses.  The handle bound by InitEncoder is
    [rotary_encoder]; it is not among the words reserved by loading the
    file. *)
Lemma reserved_handle_counterexample :
  ~ In (leading_identifier
          (code_of (snd (Python.initialise_rotary_encoder G0 scenario_A))))
       (reservedWords (module_load G0)).
Proof.
  cbn. intros [H|[]]. discriminate H.
Qed.

(** C6, amended.  Loading the file reserves exactly one word, [rotary] (the
    module named in the import line); every fragment of the five emitters
    starts with the handle [rotary_encoder], which is a different name and
    is reserved after loading only if it was before. *)
Theorem module_load_reserves_rotary :
  forall (G : Generator),
    RESERVED_WORDS_ G = "" \/ (exists s, RESERVED_WORDS_ G = s ++ ",") ->
    reservedWords (module_load G) = (reservedWords G ++ ["rotary"])%list /\
    definitions_ (module_load G) = definitions_ G /\
    (forall type emit G' block,
        js_get Blockly_Python type = Some emit ->
        leading_identifier (code_of (snd (emit G' block))) = "rotary_encoder") /\
    (In "rotary_encoder" (reservedWords (module_load G)) ->
     In "rotary_encoder" (reservedWords G)).
Proof.
  intros G HG. pose proof (reservedWords_module_load G HG) as E.
  split; [exact E|]. split; [reflexivity|].
  split; [intros t emit G' block Ht; exact (emitted_handle t emit G' block Ht)|].
  rewrite E. intros H. apply in_app_or in H. destruct H as [H|[H|[]]];
    [exact H|discriminate H].
Qed.

Lemma module_load_reserves_rotary_witness :
  (RESERVED_WORDS_ G0 = "" \/ (exists s, RESERVED_WORDS_ G0 = s ++ ",")) /\
  reservedWords (module_load G0) = ["rotary"].
Proof.
  assert (H : RESERVED_WORDS_ G0 = "" \/ (exists s, RESERVED_WORDS_ G0 = s ++ ","))
    by (left; reflexivity).
  split; [exact H|].
  exact (proj1 (module_load_reserves_rotary G0 H)).
Defined.

(** ** Statement fragments and chaining *)

Lemma append_nil_r (s : string) : s ++ "" = s.
Proof.
  induction s as [|c s IH]; simpl; [reflexivity|]. now rewrite IH.
Qed.

Lemma concat_cons (x : string) (l : list string) :
  String.concat "" (x :: l) = x ++ String.concat "" l.
Proof.
  destruct l; simpl; [now rewrite append_nil_r|reflexivity].
Qed.

Lemma ends_with_LF_app (line : string) : ends_with_LF (line ++ LF) = true.
Proof.
  induction line as [|c line IH]; [reflexivity|].
  simpl. destruct (line ++ LF) eqn:E; [|exact IH].
  destruct line; discriminate E.
Qed.

Lemma newline_free_app (s t : string) :
  newline_free s -> newline_free t -> newline_free (s ++ t).
Proof.
  unfold newline_free. rewrite count_char_app. lia.
Qed.

Lemma newline_free_field (block : Block) (name : string) :
  newline_free_block block -> newline_free (js_str (getFieldValue block name)).
Proof.
  intros [Hf _]. unfold getFieldValue.
  destruct (js_get (fields block) name) as [v|] eqn:E; [|reflexivity].
  exact (js_get_Forall newline_free _ _ _ Hf E).
Qed.

Lemma newline_free_valueToCode (block : Block) (name : string) (o : Order) :
  newline_free_block block -> newline_free (Python.valueToCode block name o).
Proof.
  intros [_ Hi]. unfold Python.valueToCode.
  destruct (js_get (inputTargets block) name) as [[code inner]|] eqn:E;
    [|reflexivity].
  pose proof (js_get_Forall (fun v => newline_free (fst v)) _ _ _ Hi E) as Hc.
  cbn [fst] in Hc.
  destruct (String.eqb code ""); [reflexivity|].
  destruct (Python.parensNeeded o inner); [|exact Hc].
  repeat apply newline_free_app; auto; reflexivity.
Qed.

(** Each statement kind has an emitter, and what it returns is a line
    followed by one line break; the line is the same in every generator
    state. *)
Lemma statement_emitter_line (block : Block) :
  is_statement_kind (type block) = true ->
  exists (emit : Emitter) (line : string),
    js_get Blockly_Python (type block) = Some emit /\
    (forall G, snd (emit G block) = Statement (line ++ LF)) /\
    (newline_free_block block -> newline_free line).
Proof.
  intros H. apply statement_kind_cases in H.
  destruct H as [Ht|[Ht|[Ht|Ht]]]; rewrite Ht.
  - exists Python.initialise_rotary_encoder. eexists. split; [reflexivity|].
    split.
    + intros G. cbn [snd Python.initialise_rotary_encoder].
      rewrite <- !append_assoc. reflexivity.
    + intros Hb.
      repeat apply newline_free_app;
        try apply newline_free_field; auto; reflexivity.
  - exists Python.set_range_value. eexists. split; [reflexivity|]. split.
    + intros G. cbn [snd Python.set_range_value].
      rewrite <- !append_assoc. reflexivity.
    + intros Hb.
      repeat apply newline_free_app;
        try apply newline_free_valueToCode; auto; reflexivity.
  - exists Python.rotary_mode. eexists. split; [reflexivity|]. split.
    + intros G. cbn [snd Python.rotary_mode].
      rewrite <- !append_assoc. reflexivity.
    + intros Hb.
      repeat apply newline_free_app;
        try apply newline_free_field; auto; reflexivity.
  - exists Python.set_current_value. eexists. split; [reflexivity|]. split.
    + intros G. cbn [snd Python.set_current_value].
      rewrite <- !append_assoc. reflexivity.
    + intros Hb.
      repeat apply newline_free_app;
        try apply newline_free_valueToCode; auto; reflexivity.
Qed.

(** The chain of a list of statement blocks always generates, and its
    text is the blocks' lines, each with its line break. *)
Lemma chainToCode_lines (blocks : list Block) :
  Forall (fun b => is_statement_kind (type b) = true) blocks ->
  exists lines : list string,
    Forall2 (fun b l =>
               (forall G emit,
                   js_get Blockly_Python (type b) = Some emit ->
                   snd (emit G b) = Statement (l ++ LF)) /\
               (newline_free_block b -> newline_free l))
            blocks lines /\
    forall G, exists G',
      chainToCode G blocks
      = Some (G', String.concat "" (map (fun l => l ++ LF) lines)).
Proof.
  induction 1 as [|b blocks Hb _ IH].
  - exists []. split; [constructor|]. intros G. now exists G.
  - destruct (statement_emitter_line b Hb) as (emit & line & He & Hline & Hfree).
    destruct IH as (lines & Hlines & Hchain).
    exists (line :: lines). split.
    + constructor; [|exact Hlines]. split; [|exact Hfree].
      intros G emit' He'. rewrite He in He'. injection He' as <-.
      apply Hline.
    + intros G. destruct (emit G b) as [G1 e] eqn:Hemit.
      pose proof (Hline G) as HG. rewrite Hemit in HG. cbn [snd] in HG. subst e.
      destruct (Hchain G1) as [G' HG'].
      exists G'. cbn [chainToCode]. rewrite He, Hemit, HG'.
      cbn [map]. now rewrite concat_cons.
Qed.

(** C7, as stated: for every resolved input a chain would come out as one
    line per statement.  A single SetValue block whose child code holds a
    line break is a statement block and generates, but its text is two
    lines. *)
Lemma statement_fragments_chain_counterexample :
  is_statement_kind (type set_from_multiline) = true /\
  chainToCode G0 [set_from_multiline] <> None /\
  ~ (exists (G' : Generator) (code line : string),
        chainToCode G0 [set_from_multiline] = Some (G', code) /\
        js_split "010" code = [line; ""]).
Proof.
  split; [reflexivity|]. split; [discriminate|].
  intros (G' & code & line & Hchain & Hsplit).
  injection Hchain as _ <-. discriminate Hsplit.
Qed.

(** C7, amended.  Each of the four statement emitters (InitEncoder, SetRange, SetMode,
    SetValue) returns, for every input, text whose last character is a line
    break of its own; a chain of such blocks therefore generates the lines
    in order with nothing put between them, and splitting the result at line
    breaks gives back one line per block when the resolved inputs hold no
    line break themselves. *)
Theorem statement_fragments_chain :
  forall (G : Generator) (blocks : list Block),
    Forall (fun b => is_statement_kind (type b) = true) blocks ->
    exists (G' : Generator) (lines : list string),
      chainToCode G blocks
        = Some (G', String.concat "" (map (fun l => l ++ LF) lines)) /\
      Forall2 (fun b l =>
                 forall Gb emit,
                   js_get Blockly_Python (type b) = Some emit ->
                   snd (emit Gb b) = Statement (l ++ LF) /\
                   ends_with_LF (code_of (snd (emit Gb b))) = true)
              blocks lines /\
      (Forall newline_free_block blocks ->
       js_split "010" (String.concat "" (map (fun l => l ++ LF) lines))
       = (lines ++ [""])%list).
Proof.
  intros G blocks Hall.
  destruct (chainToCode_lines blocks Hall) as (lines & Hlines & Hchain).
  destruct (Hchain G) as [G' HG'].
  exists G', lines. split; [exact HG'|]. split.
  - clear - Hlines.
    induction Hlines as [|b l bs ls [Hbl _] _ IH]; constructor; [|exact IH].
    intros Gb emit He. rewrite (Hbl Gb emit He).
    split; [reflexivity|]. apply ends_with_LF_app.
  - intros Hnl. apply js_split_lines. clear - Hlines Hnl.
    induction Hlines as [|b l bs ls [_ Hfree] _ IH]; [constructor|].
    inversion Hnl as [|? ? Hb Hbs]; subst.
    constructor; [now apply Hfree|now apply IH].
Qed.

Lemma statement_fragments_chain_witness :
  Forall (fun b => is_statement_kind (type b) = true)
    [scenario_A; scenario_C; scenario_D; set_from_read] /\
  exists (G' : Generator) (lines : list string),
    chainToCode G0 [scenario_A; scenario_C; scenario_D; set_from_read]
    = Some (G', String.concat "" (map (fun l => l ++ LF) lines)).
Proof.
  assert (H : Forall (fun b => is_statement_kind (type b) = true)
                [scenario_A; scenario_C; scenario_D; set_from_read])
    by (repeat constructor).
  split; [exact H|].
  destruct (statement_fragments_chain G0 _ H) as (G' & lines & Hc & _).
  exists G', lines. exact Hc.
Defined.

(** ** The schema registry *)

(** C8. The registry holds five kinds.  InitEncoder, SetRange, SetMode and
    SetValue are each registered with a previous and a next statement
    connection and no output; ReadValue is registered with an output and
    neither statement connection. *)
Theorem schema_chaining :
  js_keys Blockly_Blocks
    = ["initialise_rotary_encoder"; "get_value"; "set_range_value";
       "rotary_mode"; "set_current_value"] /\
  Forall (fun type =>
            exists shape : BlockShape,
              getSchema type = Some shape /\
              previousConnection shape = Some None /\
              nextConnection shape = Some None /\
              outputConnection shape = None)
         ["initialise_rotary_encoder"; "set_range_value"; "rotary_mode";
          "set_current_value"] /\
  (exists shape : BlockShape,
      getSchema "get_value" = Some shape /\
      outputConnection shape = Some (Some "Number") /\
      previousConnection shape = None /\
      nextConnection shape = None).
Proof.
  split; [reflexivity|]. split.
  - repeat constructor;
      (eexists; split; [reflexivity|]; repeat split).
  - eexists. split; [reflexivity|]. repeat split.
Qed.

(** C9. The first option of SetMode's dropdown, labelled [không giới hạn],
    has an encoded value that starts with a space, unlike the other two;
    with it selected the emitted statement is
    [rotary_encoder.set(range_mode= RotaryIRQ.RANGE_UNBOUNDED)] (and its line
    break), a space standing between [=] and the constant. *)
Theorem rotary_mode_unbounded_leading_space :
  forall (G : Generator) (block : Block),
    getFieldValue block "mode" = Some " RotaryIRQ.RANGE_UNBOUNDED" ->
    (exists rest,
        getOptions (Blocks.rotary_mode new_block) "mode"
        = Some (("không giới hạn", " RotaryIRQ.RANGE_UNBOUNDED") :: rest) /\
        length rest = 2 /\
        Forall (fun o => String.get 0 (snd o) <> Some " "%char) rest) /\
    String.get 0 " RotaryIRQ.RANGE_UNBOUNDED" = Some " "%char /\
    snd (Python.rotary_mode G block)
    = Statement ("rotary_encoder.set(range_mode= RotaryIRQ.RANGE_UNBOUNDED)" ++ LF).
Proof.
  intros G block Hmode. split; [|split].
  - eexists. split; [reflexivity|]. split; [reflexivity|].
    repeat constructor; discriminate.
  - reflexivity.
  - unfold Python.rotary_mode. rewrite Hmode. reflexivity.
Qed.

Lemma rotary_mode_unbounded_leading_space_witness :
  getFieldValue unbounded_mode "mode" = Some " RotaryIRQ.RANGE_UNBOUNDED" /\
  snd (Python.rotary_mode G0 unbounded_mode)
  = Statement ("rotary_encoder.set(range_mode= RotaryIRQ.RANGE_UNBOUNDED)" ++ LF).
Proof.
  assert (H : getFieldValue unbounded_mode "mode"
              = Some " RotaryIRQ.RANGE_UNBOUNDED") by reflexivity.
  split; [exact H|].
  exact (proj2 (proj2 (rotary_mode_unbounded_leading_space G0 unbounded_mode H))).
Defined.

(** C10. The clk and the dt dropdown of InitEncoder offer the same ordered
    list of sixteen options: labels P0..P4 and P6..P16, no P5, each with the
    encoded value [pin<n>.pin] of its own number; the labels are pairwise
    different. *)
Theorem pin_dropdowns :
  getOptions (Blocks.initialise_rotary_encoder new_block) "clk" = Some pin_options /\
  getOptions (Blocks.initialise_rotary_encoder new_block) "dt" = Some pin_options /\
  length pin_options = 16 /\
  pin_numbers = [0; 1; 2; 3; 4; 6; 7; 8; 9; 10; 11; 12; 13; 14; 15; 16] /\
  ~ In "P5" (map fst pin_options) /\
  NoDup (map fst pin_options).
Proof.
  split; [reflexivity|]. split; [reflexivity|].
  split; [reflexivity|]. split; [reflexivity|]. split.
  - cbn. intros H. repeat (destruct H as [H|H]; [discriminate H|]). exact H.
  - cbn. repeat (constructor;
      [cbn; intros H; repeat (destruct H as [H|H]; [discriminate H|]); exact H|]).
    constructor.
Qed.

(** * Further properties of the two registries *)

(** ** Schema and emitter of a kind *)

Lemma registered_cases (type : string) :
  getSchema type <> None \/ js_get Blockly_Python type <> None ->
  type = "initialise_rotary_encoder" \/ type = "get_value" \/
  type = "set_range_value" \/ type = "rotary_mode" \/
  type = "set_current_value".
Proof.
  unfold getSchema. rewrite Blockly_Blocks_table, Blockly_Python_table.
  cbn [js_get].
  destruct (String.eqb_spec "initialise_rotary_encoder" type); [subst type; tauto|].
  destruct (String.eqb_spec "get_value" type); [subst type; tauto|].
  destruct (String.eqb_spec "set_range_value" type); [subst type; tauto|].
  destruct (String.eqb_spec "rotary_mode" type); [subst type; tauto|].
  destruct (String.eqb_spec "set_current_value" type); [subst type; tauto|].
  intros [H|H]; now contradiction H.
Qed.

(** X1. A kind known to either registry is known to both, and the two entries
    agree on its role: the emitter returns a statement string exactly for a
    shape with previous and next connections and no output, and a
    [code, order] pair exactly for a shape with an output and no statement
    connection. *)
Theorem registry_roles :
  forall (type : string),
    getSchema type <> None \/ js_get Blockly_Python type <> None ->
    exists (shape : BlockShape) (emit : Emitter),
      getSchema type = Some shape /\
      js_get Blockly_Python type = Some emit /\
      forall (G : Generator) (block : Block),
        match snd (emit G block) with
        | Statement _ =>
            previousConnection shape <> None /\
            nextConnection shape <> None /\
            outputConnection shape = None
        | Expression _ _ =>
            outputConnection shape <> None /\
            previousConnection shape = None /\
            nextConnection shape = None
        end.
Proof.
  intros type H. apply registered_cases in H.
  destruct H as [->|[->|[->|[->| ->]]]];
    eexists; eexists; (split; [reflexivity|]); (split; [reflexivity|]);
    intros G block; cbn; repeat split; discriminate.
Qed.

Lemma registry_roles_witness :
  (getSchema "get_value" <> None \/ js_get Blockly_Python "get_value" <> None) /\
  exists (shape : BlockShape) (emit : Emitter),
    getSchema "get_value" = Some shape /\
    js_get Blockly_Python "get_value" = Some emit.
Proof.
  assert (H : getSchema "get_value" <> None \/
              js_get Blockly_Python "get_value" <> None)
    by (left; discriminate).
  split; [exact H|].
  destruct (registry_roles "get_value" H) as (shape & emit & Hs & He & _).
  exists shape, emit. split; assumption.
Defined.

(** Both lookups at a type that has a schema and an emitter. *)
Lemma kind_cases (type : string) (shape : BlockShape) (emit : Emitter) :
  getSchema type = Some shape ->
  js_get Blockly_Python type = Some emit ->
  (type = "initialise_rotary_encoder" /\
   shape = Blocks.initialise_rotary_encoder new_block /\
   emit = Python.initialise_rotary_encoder) \/
  (type = "get_value" /\ shape = Blocks.get_value new_block /\
   emit = Python.get_value) \/
  (type = "set_range_value" /\ shape = Blocks.set_range_value new_block /\
   emit = Python.set_range_value) \/
  (type = "rotary_mode" /\ shape = Blocks.rotary_mode new_block /\
   emit = Python.rotary_mode) \/
  (type = "set_current_value" /\ shape = Blocks.set_current_value new_block /\
   emit = Python.set_current_value).
Proof.
  intros Hs He. apply emitter_cases in He.
  destruct He as [[-> ->]|[[-> ->]|[[-> ->]|[[-> ->]|[-> ->]]]]];
    cbv [getSchema] in Hs; rewrite Blockly_Blocks_table in Hs;
    cbn [js_get String.eqb Ascii.eqb Bool.eqb] in Hs;
    injection Hs as <-; tauto.
Qed.

(** X2. An emitter reads nothing but what the schema of its kind declares: two
    blocks that agree on the dropdowns and on the value inputs named in the
    shape get the same text, in whatever generator state. *)
Theorem emitter_reads_declared :
  forall (type : string) (shape : BlockShape) (emit : Emitter)
         (G1 G2 : Generator) (b1 b2 : Block),
    getSchema type = Some shape ->
    js_get Blockly_Python type = Some emit ->
    (forall name, In name (dropdown_names shape) ->
                  getFieldValue b1 name = getFieldValue b2 name) ->
    (forall name, In name (value_input_names shape) ->
                  js_get (inputTargets b1) name = js_get (inputTargets b2) name) ->
    snd (emit G1 b1) = snd (emit G2 b2).
Proof.
  intros type shape emit G1 G2 b1 b2 Hs He Hf Hi.
  destruct (kind_cases _ _ _ Hs He)
    as [(_ & -> & ->)|[(_ & -> & ->)|[(_ & -> & ->)|[(_ & -> & ->)|(_ & -> & ->)]]]].
  - cbn [snd Python.initialise_rotary_encoder].
    rewrite (Hf "clk"), (Hf "dt"); [reflexivity|cbn; tauto|cbn; tauto].
  - reflexivity.
  - cbn [snd Python.set_range_value]. unfold Python.valueToCode.
    rewrite (Hi "min"), (Hi "max"); [reflexivity|cbn; tauto|cbn; tauto].
  - cbn [snd Python.rotary_mode].
    rewrite (Hf "mode"); [reflexivity|cbn; tauto].
  - cbn [snd Python.set_current_value]. unfold Python.valueToCode.
    rewrite (Hi "value"); [reflexivity|cbn; tauto].
Qed.

Lemma emitter_reads_declared_witness :
  getSchema "rotary_mode" = Some (Blocks.rotary_mode new_block) /\
  js_get Blockly_Python "rotary_mode" = Some Python.rotary_mode /\
  snd (Python.rotary_mode G0 scenario_D)
  = snd (Python.rotary_mode preloaded
           (mkBlock "rotary_mode"
              [("clk", "pin0.pin"); ("mode", "RotaryIRQ.RANGE_WRAP")]
              [("value", ("7", 0%Z))])).
Proof.
  split; [reflexivity|]. split; [reflexivity|].
  apply (emitter_reads_declared "rotary_mode" (Blocks.rotary_mode new_block)
           Python.rotary_mode); try reflexivity.
  - cbn. intros name [<-|[]]. reflexivity.
  - cbn. intros name [].
Defined.

(** ** Reading the inputs back from the text *)

Lemma length_append (s t : string) :
  String.length (s ++ t) = String.length s + String.length t.
Proof.
  induction s as [|c s IH]; simpl; [reflexivity|]. now rewrite IH.
Qed.

Lemma append_inj_r (u x y : string) : x ++ u = y ++ u -> x = y.
Proof.
  revert y. induction x as [|a x IH]; intros [|b y] H; simpl in H.
  - reflexivity.
  - apply (f_equal String.length) in H. simpl in H.
    rewrite length_append in H. lia.
  - apply (f_equal String.length) in H. simpl in H.
    rewrite length_append in H. lia.
  - injection H as -> H. f_equal. now apply IH.
Qed.

(** Two texts cut at the first occurrence of a character agree part by
    part. *)
Lemma append_sep_inj (c : ascii) (s s' t t' : string) :
  count_char c s = 0 -> count_char c s' = 0 ->
  s ++ String c t = s' ++ String c t' -> s = s' /\ t = t'.
Proof.
  revert s'. induction s as [|a s IH]; intros [|b s']; simpl.
  - intros _ _ [= ->]. now split.
  - intros _ Hb [= <- _]. rewrite Ascii.eqb_refl in Hb. discriminate.
  - intros Ha _ [= -> _]. rewrite Ascii.eqb_refl in Ha. discriminate.
  - intros Ha Hb [= -> H].
    destruct (Ascii.eqb b c); [discriminate|].
    destruct (IH s' Ha Hb H) as [-> ->]. now split.
Qed.

Lemma pin_values_comma_free (v : string) :
  In v (map snd pin_options) -> count_char "," v = 0.
Proof.
  revert v. apply Forall_forall. repeat constructor.
Qed.

Lemma initialise_rotary_encoder_options (name : string) :
  In name (dropdown_names (Blocks.initialise_rotary_encoder new_block)) ->
  getOptions (Blocks.initialise_rotary_encoder new_block) name
  = Some pin_options.
Proof.
  cbn. intros [<-|[<-|[]]]; reflexivity.
Qed.

(** X3. The dropdown selections can be read back from the emitted text: two
    blocks that fit the schema of their kind and get the same text hold the
    same value in every dropdown of the shape.  For InitEncoder this rests
    on no pin value containing a comma. *)
Theorem selections_determined_by_text :
  forall (type : string) (shape : BlockShape) (emit : Emitter)
         (G1 G2 : Generator) (b1 b2 : Block),
    getSchema type = Some shape ->
    js_get Blockly_Python type = Some emit ->
    valid_selection shape b1 ->
    valid_selection shape b2 ->
    snd (emit G1 b1) = snd (emit G2 b2) ->
    forall name, In name (dropdown_names shape) ->
                 getFieldValue b1 name = getFieldValue b2 name.
Proof.
  intros type shape emit G1 G2 b1 b2 Hs He V1 V2 Heq name Hname.
  destruct (kind_cases _ _ _ Hs He)
    as [(_ & -> & ->)|[(_ & -> & ->)|[(_ & -> & ->)|[(_ & -> & ->)|(_ & -> & ->)]]]];
    try (cbn in Hname; contradiction).
  - assert (Hc : In "clk" (dropdown_names (Blocks.initialise_rotary_encoder new_block)))
      by (cbn; tauto).
    assert (Hd : In "dt" (dropdown_names (Blocks.initialise_rotary_encoder new_block)))
      by (cbn; tauto).
    destruct (V1 _ Hc) as (o1 & c1 & Ho1 & Hc1 & Hin1).
    destruct (V2 _ Hc) as (o2 & c2 & Ho2 & Hc2 & Hin2).
    destruct (V1 _ Hd) as (o3 & d1 & Ho3 & Hd1 & _).
    destruct (V2 _ Hd) as (o4 & d2 & Ho4 & Hd2 & _).
    rewrite (initialise_rotary_encoder_options _ Hc) in Ho1, Ho2.
    injection Ho1 as <-. injection Ho2 as <-.
    apply pin_values_comma_free in Hin1, Hin2.
    cbn [snd Python.initialise_rotary_encoder] in Heq.
    rewrite Hc1, Hc2, Hd1, Hd2 in Heq. cbn [js_str] in Heq.
    injection Heq as Heq.
    apply append_sep_inj in Heq; [|assumption|assumption].
    destruct Heq as [-> Heq]. injection Heq as Heq.
    apply append_inj_r in Heq. subst d2.
    cbn in Hname. destruct Hname as [<-|[<-|[]]]; congruence.
  - assert (Hm : In "mode" (dropdown_names (Blocks.rotary_mode new_block)))
      by (cbn; tauto).
    destruct (V1 _ Hm) as (o1 & m1 & _ & Hm1 & _).
    destruct (V2 _ Hm) as (o2 & m2 & _ & Hm2 & _).
    cbn [snd Python.rotary_mode] in Heq.
    rewrite Hm1, Hm2 in Heq. cbn [js_str] in Heq.
    injection Heq as Heq. apply append_inj_r in Heq. subst m2.
    cbn in Hname. destruct Hname as [<-|[]]. congruence.
Qed.

Lemma scenario_A_valid :
  valid_selection (Blocks.initialise_rotary_encoder new_block) scenario_A.
Proof.
  intros name Hname. exists pin_options.
  cbn in Hname. destruct Hname as [<-|[<-|[]]].
  - exists "pin0.pin". repeat split. cbn. tauto.
  - exists "pin1.pin". repeat split. cbn. tauto.
Qed.

Lemma selections_determined_by_text_witness :
  getSchema "initialise_rotary_encoder"
    = Some (Blocks.initialise_rotary_encoder new_block) /\
  valid_selection (Blocks.initialise_rotary_encoder new_block) scenario_A /\
  getFieldValue scenario_A "clk" = getFieldValue scenario_A "clk".
Proof.
  split; [reflexivity|]. split; [exact scenario_A_valid|].
  apply (selections_determined_by_text "initialise_rotary_encoder"
           (Blocks.initialise_rotary_encoder new_block)
           Python.initialise_rotary_encoder G0 preloaded scenario_A scenario_A);
    try reflexivity; try exact scenario_A_valid.
  cbn. tauto.
Defined.

(** X4. The SetValue statement determines the argument it was given. *)
Theorem set_current_value_injective :
  forall (G1 G2 : Generator) (b1 b2 : Block),
    snd (Python.set_current_value G1 b1) = snd (Python.set_current_value G2 b2) ->
    Python.valueToCode b1 "value" Python.ORDER_ATOMIC
    = Python.valueToCode b2 "value" Python.ORDER_ATOMIC.
Proof.
  intros G1 G2 b1 b2 H. cbn [snd Python.set_current_value] in H.
  injection H as H. now apply append_inj_r in H.
Qed.

Lemma set_current_value_injective_witness :
  snd (Python.set_current_value G0 set_from_read)
    = snd (Python.set_current_value preloaded set_from_read) /\
  Python.valueToCode set_from_read "value" Python.ORDER_ATOMIC
  = Python.valueToCode set_from_read "value" Python.ORDER_ATOMIC.
Proof.
  assert (H : snd (Python.set_current_value G0 set_from_read)
              = snd (Python.set_current_value preloaded set_from_read))
    by reflexivity.
  split; [exact H|].
  exact (set_current_value_injective G0 preloaded set_from_read set_from_read H).
Defined.

(** X5. The SetRange statement determines both bounds as long as the resolved
    lower bounds contain no comma, the character the emitter puts after
    them. *)
Theorem set_range_value_injective :
  forall (G1 G2 : Generator) (b1 b2 : Block),
    count_char "," (Python.valueToCode b1 "min" Python.ORDER_ATOMIC) = 0 ->
    count_char "," (Python.valueToCode b2 "min" Python.ORDER_ATOMIC) = 0 ->
    snd (Python.set_range_value G1 b1) = snd (Python.set_range_value G2 b2) ->
    Python.valueToCode b1 "min" Python.ORDER_ATOMIC
      = Python.valueToCode b2 "min" Python.ORDER_ATOMIC /\
    Python.valueToCode b1 "max" Python.ORDER_ATOMIC
      = Python.valueToCode b2 "max" Python.ORDER_ATOMIC.
Proof.
  intros G1 G2 b1 b2 H1 H2 H. cbn [snd Python.set_range_value] in H.
  injection H as H.
  apply append_sep_inj in H; [|assumption|assumption].
  destruct H as [Hmin H]. split; [exact Hmin|].
  injection H as H. now apply append_inj_r in H.
Qed.

Lemma set_range_value_injective_witness :
  count_char "," (Python.valueToCode scenario_C "min" Python.ORDER_ATOMIC) = 0 /\
  snd (Python.set_range_value G0 scenario_C)
    = snd (Python.set_range_value preloaded scenario_C) /\
  Python.valueToCode scenario_C "max" Python.ORDER_ATOMIC
  = Python.valueToCode scenario_C "max" Python.ORDER_ATOMIC.
Proof.
  split; [reflexivity|]. split; [reflexivity|].
  apply (set_range_value_injective G0 preloaded scenario_C scenario_C);
    reflexivity.
Defined.

(** Without that condition the bounds cannot be read back: a comma inside
    the lower bound lets two different pairs give one text. *)
Lemma set_range_value_collision :
  let b1 := mkBlock "set_range_value" []
              [("min", ("a, max_val=b", 0%Z)); ("max", ("c", 0%Z))] in
  let b2 := mkBlock "set_range_value" []
              [("min", ("a", 0%Z)); ("max", ("b, max_val=c", 0%Z))] in
  snd (Python.set_range_value G0 b1) = snd (Python.set_range_value G0 b2) /\
  Python.valueToCode b1 "min" Python.ORDER_ATOMIC
  <> Python.valueToCode b2 "min" Python.ORDER_ATOMIC.
Proof. split; [reflexivity|discriminate]. Qed.

(** ** The generator's state *)

Lemma js_get_set_other {A} (o : JsObject A) (key key' : string) (v : A) :
  key' <> key -> js_get (js_set o key v) key' = js_get o key'.
Proof.
  intros Hne. induction o as [|[k w] o IH]; simpl.
  - destruct (String.eqb_spec key key'); [congruence|reflexivity].
  - destruct (String.eqb_spec k key) as [->|Hk]; simpl.
    + destruct (String.eqb_spec key key'); [congruence|reflexivity].
    + destruct (String.eqb k key'); [reflexivity|exact IH].
Qed.

Lemma js_keys_set {A} (o : JsObject A) (key : string) (v : A) :
  js_keys (js_set o key v)
  = if existsb (fun k => String.eqb k key) (js_keys o)
    then js_keys o else (js_keys o ++ [key])%list.
Proof.
  unfold js_keys. induction o as [|[k w] o IH]; simpl; [reflexivity|].
  destruct (String.eqb k key); simpl; [reflexivity|].
  rewrite IH. now destruct (existsb _ (map fst o)).
Qed.

Lemma js_set_NoDup {A} (o : JsObject A) (key : string) (v : A) :
  NoDup (js_keys o) -> NoDup (js_keys (js_set o key v)).
Proof.
  intros Hnd. rewrite js_keys_set.
  destruct (existsb _ (js_keys o)) eqn:E; [exact Hnd|].
  apply NoDup_app; [exact Hnd|repeat constructor; intros []|].
  intros k Hk [<-|[]].
  assert (existsb (fun k0 => String.eqb k0 key) (js_keys o) = true).
  { apply existsb_exists. exists key. split; [exact Hk|apply String.eqb_refl]. }
  congruence.
Qed.

(** X6. InitEncoder's registration keeps the rest of the preamble: every entry
    under another key stays as it was, a present [import_rotary] entry is
    overwritten where it stands and a new one goes to the end, keys stay
    pairwise different, and the reserved words are not touched. *)
Theorem initialise_rotary_encoder_keeps_preamble :
  forall (G : Generator) (block : Block) (key : string),
    key <> "import_rotary" ->
    let G' := fst (Python.initialise_rotary_encoder G block) in
    js_get (definitions_ G') key = js_get (definitions_ G) key /\
    js_get (definitions_ G') "import_rotary"
      = Some "from rotary import RotaryIRQ" /\
    js_keys (definitions_ G')
      = (if existsb (fun k => String.eqb k "import_rotary")
              (js_keys (definitions_ G))
         then js_keys (definitions_ G)
         else (js_keys (definitions_ G) ++ ["import_rotary"])%list) /\
    (NoDup (js_keys (definitions_ G)) -> NoDup (js_keys (definitions_ G'))) /\
    RESERVED_WORDS_ G' = RESERVED_WORDS_ G.
Proof.
  intros G block key Hkey G'. subst G'.
  rewrite initialise_rotary_encoder_state. unfold Python.set_definition.
  cbn [definitions_ RESERVED_WORDS_].
  split; [now apply js_get_set_other|].
  split; [apply js_get_set_same|].
  split; [apply js_keys_set|].
  split; [apply js_set_NoDup|reflexivity].
Qed.

Lemma initialise_rotary_encoder_keeps_preamble_witness :
  "import_machine" <> "import_rotary" /\
  js_get (definitions_ (fst (Python.initialise_rotary_encoder preloaded scenario_A)))
    "import_machine" = Some "import machine".
Proof.
  assert (H : "import_machine" <> "import_rotary") by discriminate.
  split; [exact H|].
  exact (proj1 (initialise_rotary_encoder_keeps_preamble preloaded scenario_A
                  "import_machine" H)).
Defined.

(** X7. An emitter whose schema declares no value input (InitEncoder,
    ReadValue, SetMode) runs no child generator: it leaves the reserved
    words alone, and unless it is InitEncoder it returns the generator as it
    found it. *)
Theorem emitters_keep_generator :
  forall (type : string) (shape : BlockShape) (emit : Emitter)
         (G : Generator) (block : Block),
    getSchema type = Some shape ->
    js_get Blockly_Python type = Some emit ->
    value_input_names shape = [] ->
    RESERVED_WORDS_ (fst (emit G block)) = RESERVED_WORDS_ G /\
    (type <> "initialise_rotary_encoder" -> fst (emit G block) = G).
Proof.
  intros type shape emit G block Hs He Hv.
  destruct (kind_cases _ _ _ Hs He)
    as [(-> & -> & ->)|[(-> & -> & ->)|[(-> & -> & ->)|[(-> & -> & ->)|(-> & -> & ->)]]]];
    try discriminate Hv;
    (split; [reflexivity|]); intros Hne; try reflexivity.
  now contradiction Hne.
Qed.

Lemma emitters_keep_generator_witness :
  getSchema "rotary_mode" = Some (Blocks.rotary_mode new_block) /\
  js_get Blockly_Python "rotary_mode" = Some Python.rotary_mode /\
  value_input_names (Blocks.rotary_mode new_block) = [] /\
  fst (Python.rotary_mode preloaded scenario_D) = preloaded.
Proof.
  split; [reflexivity|]. split; [reflexivity|]. split; [reflexivity|].
  refine (proj2 (emitters_keep_generator "rotary_mode"
                   (Blocks.rotary_mode new_block) Python.rotary_mode
                   preloaded scenario_D eq_refl eq_refl eq_refl) _).
  discriminate.
Defined.

(** ** Value inputs: nothing connected, and children of any strength *)

Lemma valueToCode_atomic (block : Block) (name code : string) (inner : Order) :
  js_get (inputTargets block) name = Some (code, inner) ->
  code <> "" -> (0 <= inner)%Z ->
  Python.valueToCode block name Python.ORDER_ATOMIC = wrap_atomic code inner.
Proof.
  intros Hin Hcode Hpos. unfold Python.valueToCode, wrap_atomic. rewrite Hin.
  destruct (String.eqb_spec code ""); [contradiction|].
  unfold Python.parensNeeded, Python.ORDER_ATOMIC.
  destruct inner as [|p|p]; [reflexivity|reflexivity|lia].
Qed.

(** X8. A SetValue or SetRange block with nothing plugged in still generates:
    the argument text is empty and the call is emitted around it. *)
Theorem unconnected_inputs_emit_empty :
  forall (G : Generator) (block : Block),
    inputTargets block = [] ->
    Python.set_current_value G block
      = (G, Statement ("rotary_encoder.set(value=)" ++ LF)) /\
    Python.set_range_value G block
      = (G, Statement ("rotary_encoder.set(min_val=, max_val=, range_mode=RotaryIRQ.RANGE_WRAP)" ++ LF)).
Proof.
  intros G block H.
  unfold Python.set_current_value, Python.set_range_value, Python.valueToCode.
  rewrite H. split; reflexivity.
Qed.

Lemma unconnected_inputs_emit_empty_witness :
  inputTargets scenario_D = [] /\
  Python.set_current_value G0 scenario_D
  = (G0, Statement ("rotary_encoder.set(value=)" ++ LF)).
Proof.
  split; [reflexivity|].
  exact (proj1 (unconnected_inputs_emit_empty G0 scenario_D eq_refl)).
Defined.

(** X9. SetValue asks its child for atomic strength: a child tagged
    [ORDER_ATOMIC] is inserted as it is, a child with any weaker tag arrives
    in parentheses. *)
Theorem set_current_value_child :
  forall (G : Generator) (block : Block) (code : string) (inner : Order),
    js_get (inputTargets block) "value" = Some (code, inner) ->
    code <> "" ->
    (0 <= inner)%Z ->
    Python.set_current_value G block
    = (G, Statement ("rotary_encoder.set(value=" ++ wrap_atomic code inner
                     ++ ")" ++ LF)).
Proof.
  intros G block code inner Hin Hcode Hpos.
  unfold Python.set_current_value.
  now rewrite (valueToCode_atomic block "value" code inner Hin Hcode Hpos).
Qed.

Lemma set_current_value_child_witness :
  js_get (inputTargets set_from_sum) "value" = Some ("a + b", 6%Z) /\
  "a + b" <> "" /\ (0 <= 6)%Z /\
  Python.set_current_value G0 set_from_sum
  = (G0, Statement ("rotary_encoder.set(value=(a + b))" ++ LF)).
Proof.
  split; [reflexivity|]. split; [discriminate|]. split; [lia|].
  apply (set_current_value_child G0 set_from_sum "a + b" 6%Z);
    [reflexivity|discriminate|lia].
Defined.

(** X10. SetRange does the same for each of its two bounds, independently. *)
Theorem set_range_value_children :
  forall (G : Generator) (block : Block) (cmin cmax : string)
         (imin imax : Order),
    js_get (inputTargets block) "min" = Some (cmin, imin) ->
    js_get (inputTargets block) "max" = Some (cmax, imax) ->
    cmin <> "" -> cmax <> "" -> (0 <= imin)%Z -> (0 <= imax)%Z ->
    Python.set_range_value G block
    = (G, Statement ("rotary_encoder.set(min_val=" ++ wrap_atomic cmin imin
                     ++ ", max_val=" ++ wrap_atomic cmax imax
                     ++ ", range_mode=RotaryIRQ.RANGE_WRAP)" ++ LF)).
Proof.
  intros G block cmin cmax imin imax Hmin Hmax Hcmin Hcmax Himin Himax.
  unfold Python.set_range_value.
  rewrite (valueToCode_atomic block "min" cmin imin Hmin Hcmin Himin).
  now rewrite (valueToCode_atomic block "max" cmax imax Hmax Hcmax Himax).
Qed.

Lemma set_range_value_children_witness :
  js_get (inputTargets scenario_C) "min" = Some ("0", 0%Z) /\
  js_get (inputTargets scenario_C) "max" = Some ("100", 0%Z) /\
  Python.set_range_value G0 scenario_C
  = (G0, Statement ("rotary_encoder.set(min_val=0, max_val=100, range_mode=RotaryIRQ.RANGE_WRAP)" ++ LF)).
Proof.
  split; [reflexivity|]. split; [reflexivity|].
  apply (set_range_value_children G0 scenario_C "0" "100" 0%Z 0%Z);
    try reflexivity; try discriminate.
Defined.

(** X11. A block without the field an emitter asks for: the host answers
    [null], and the text [null] lands in the statement at that field's
    place, whatever other fields the block has.  For SetMode that is the
    mode; for InitEncoder the clk and the dt field are each treated on their
    own. *)
Theorem missing_fields_emit_null :
  forall (G : Generator) (block : Block),
    (getFieldValue block "mode" = None ->
     snd (Python.rotary_mode G block)
     = Statement ("rotary_encoder.set(range_mode=null)" ++ LF)) /\
    (getFieldValue block "clk" = None ->
     snd (Python.initialise_rotary_encoder G block)
     = Statement ("rotary_encoder = RotaryIRQ(pin_num_clk=null, pin_num_dt="
                  ++ js_str (getFieldValue block "dt")
                  ++ ", min_val=0, max_val=10, reverse=True, range_mode=RotaryIRQ.RANGE_UNBOUNDED, pull_up=False)"
                  ++ LF)) /\
    (getFieldValue block "dt" = None ->
     snd (Python.initialise_rotary_encoder G block)
     = Statement ("rotary_encoder = RotaryIRQ(pin_num_clk="
                  ++ js_str (getFieldValue block "clk")
                  ++ ", pin_num_dt=null, min_val=0, max_val=10, reverse=True, range_mode=RotaryIRQ.RANGE_UNBOUNDED, pull_up=False)"
                  ++ LF)).
Proof.
  intros G block.
  unfold Python.initialise_rotary_encoder, Python.rotary_mode.
  split; [|split]; intros ->; reflexivity.
Qed.

Lemma missing_fields_emit_null_witness :
  fields clk_only <> [] /\
  getFieldValue clk_only "dt" = None /\
  snd (Python.initialise_rotary_encoder G0 clk_only)
  = Statement ("rotary_encoder = RotaryIRQ(pin_num_clk=pin0.pin, pin_num_dt=null, min_val=0, max_val=10, reverse=True, range_mode=RotaryIRQ.RANGE_UNBOUNDED, pull_up=False)" ++ LF).
Proof.
  split; [discriminate|]. split; [reflexivity|].
  exact (proj2 (proj2 (missing_fields_emit_null G0 clk_only)) eq_refl).
Defined.

(** ** Brackets *)

Lemma paren_depth_app (s t : string) :
  forall d, paren_depth d (s ++ t)
            = match paren_depth d s with
              | Some d' => paren_depth d' t
              | None => None
              end.
Proof.
  induction s as [|c s IH]; intros d; simpl; [reflexivity|].
  destruct (Ascii.eqb c "("); [apply IH|].
  destruct (Ascii.eqb c ")"); [|apply IH].
  destruct d; [reflexivity|apply IH].
Qed.

Lemma paren_depth_shift (s : string) :
  forall d d' k, paren_depth d s = Some d' ->
                 paren_depth (d + k) s = Some (d' + k).
Proof.
  induction s as [|c s IH]; intros d d' k; simpl.
  - now intros [= ->].
  - destruct (Ascii.eqb c "("); [exact (IH (S d) d' k)|].
    destruct (Ascii.eqb c ")"); [|exact (IH d d' k)].
    destruct d; [discriminate|]. exact (IH d d' k).
Qed.

(** A balanced text put anywhere leaves the depth as it was. *)
Lemma paren_depth_balanced (v rest : string) (d : nat) :
  balanced v -> paren_depth d (v ++ rest) = paren_depth d rest.
Proof.
  intros Hv. rewrite paren_depth_app.
  pose proof (paren_depth_shift v 0 0 d Hv) as H. cbn [Nat.add] in H.
  now rewrite H.
Qed.

Lemma balanced_field (block : Block) (name : string) :
  balanced_block block -> balanced (js_str (getFieldValue block name)).
Proof.
  intros [Hf _]. unfold getFieldValue.
  destruct (js_get (fields block) name) as [v|] eqn:E; [|reflexivity].
  exact (js_get_Forall balanced _ _ _ Hf E).
Qed.

Lemma balanced_valueToCode (block : Block) (name : string) (o : Order) :
  balanced_block block -> balanced (Python.valueToCode block name o).
Proof.
  intros [_ Hi]. unfold Python.valueToCode.
  destruct (js_get (inputTargets block) name) as [[code inner]|] eqn:E;
    [|reflexivity].
  pose proof (js_get_Forall (fun v => balanced (fst v)) _ _ _ Hi E) as Hc.
  cbn [fst] in Hc.
  destruct (String.eqb code ""); [reflexivity|].
  destruct (Python.parensNeeded o inner); [|exact Hc].
  unfold balanced. cbn [append paren_depth Ascii.eqb Bool.eqb].
  now rewrite paren_depth_balanced.
Qed.

(** X12. Every fragment of the family has its round brackets balanced whenever
    the field values and child codes it is built from have. *)
Theorem emitted_brackets_balanced :
  forall (type : string) (emit : Emitter) (G : Generator) (block : Block),
    js_get Blockly_Python type = Some emit ->
    balanced_block block ->
    balanced (code_of (snd (emit G block))).
Proof.
  intros type emit G block He Hb. apply emitter_cases in He.
  destruct He as [[_ ->]|[[_ ->]|[[_ ->]|[[_ ->]|[_ ->]]]]].
  - pose proof (balanced_field block "clk" Hb) as Hc.
    pose proof (balanced_field block "dt" Hb) as Hd.
    unfold balanced. cbn [code_of snd Python.initialise_rotary_encoder].
    cbn [append paren_depth Ascii.eqb Bool.eqb].
    rewrite (paren_depth_balanced _ _ _ Hc).
    cbn [append paren_depth Ascii.eqb Bool.eqb].
    rewrite (paren_depth_balanced _ _ _ Hd). reflexivity.
  - reflexivity.
  - pose proof (balanced_valueToCode block "min" Python.ORDER_ATOMIC Hb) as Hc.
    pose proof (balanced_valueToCode block "max" Python.ORDER_ATOMIC Hb) as Hd.
    unfold balanced. cbn [code_of snd Python.set_range_value].
    cbn [append paren_depth Ascii.eqb Bool.eqb].
    rewrite (paren_depth_balanced _ _ _ Hc).
    cbn [append paren_depth Ascii.eqb Bool.eqb].
    rewrite (paren_depth_balanced _ _ _ Hd). reflexivity.
  - pose proof (balanced_field block "mode" Hb) as Hc.
    unfold balanced. cbn [code_of snd Python.rotary_mode].
    cbn [append paren_depth Ascii.eqb Bool.eqb].
    rewrite (paren_depth_balanced _ _ _ Hc). reflexivity.
  - pose proof (balanced_valueToCode block "value" Python.ORDER_ATOMIC Hb) as Hc.
    unfold balanced. cbn [code_of snd Python.set_current_value].
    cbn [append paren_depth Ascii.eqb Bool.eqb].
    rewrite (paren_depth_balanced _ _ _ Hc). reflexivity.
Qed.

Lemma emitted_brackets_balanced_witness :
  js_get Blockly_Python "set_current_value" = Some Python.set_current_value /\
  balanced_block set_from_sum /\
  balanced (code_of (snd (Python.set_current_value G0 set_from_sum))).
Proof.
  assert (H : balanced_block set_from_sum)
    by (split; repeat constructor).
  split; [reflexivity|]. split; [exact H|].
  exact (emitted_brackets_balanced "set_current_value"
           Python.set_current_value G0 set_from_sum eq_refl H).
Defined.

(** ** Shapes of the registry *)

Lemma schema_cases (type : string) (shape : BlockShape) :
  getSchema type = Some shape ->
  shape = Blocks.initialise_rotary_encoder new_block \/
  shape = Blocks.get_value new_block \/
  shape = Blocks.set_range_value new_block \/
  shape = Blocks.rotary_mode new_block \/
  shape = Blocks.set_current_value new_block.
Proof.
  unfold getSchema. rewrite Blockly_Blocks_table.
  by_kind type; try discriminate; intros [= <-]; tauto.
Qed.

(** X13. Every registered shape is well formed: its dropdowns and value inputs
    have pairwise different names, no input restricts what may be plugged
    in, and every dropdown is found under its name with a non-empty option
    list whose labels are pairwise different and whose encoded values are
    pairwise different. *)
Theorem schema_well_formed :
  forall (type : string) (shape : BlockShape),
    getSchema type = Some shape ->
    NoDup (dropdown_names shape ++ value_input_names shape) /\
    Forall (fun i => input_check i = None) (inputList shape) /\
    forall name, In name (dropdown_names shape) ->
      exists options,
        getOptions shape name = Some options /\
        options <> [] /\
        NoDup (map fst options) /\
        NoDup (map snd options).
Proof.
  intros type shape Hs. apply schema_cases in Hs.
  destruct Hs as [->|[->|[->|[->| ->]]]];
    (split; [nodup_strings|]); (split; [repeat constructor|]);
    cbn; intros name Hname;
    repeat (destruct Hname as [<-|Hname]);
    try contradiction;
    (eexists; split; [reflexivity|]; split; [discriminate|];
     split; nodup_strings).
Qed.

Lemma schema_well_formed_witness :
  getSchema "rotary_mode" = Some (Blocks.rotary_mode new_block) /\
  NoDup (dropdown_names (Blocks.rotary_mode new_block)
         ++ value_input_names (Blocks.rotary_mode new_block)).
Proof.
  split; [reflexivity|].
  exact (proj1 (schema_well_formed "rotary_mode"
                  (Blocks.rotary_mode new_block) eq_refl)).
Defined.

Lemma getOptions_initialise_rotary_encoder (name : string) :
  getOptions (Blocks.initialise_rotary_encoder new_block) name
  = if String.eqb "clk" name then Some pin_options
    else if String.eqb "dt" name then Some pin_options else None.
Proof.
  cbv -[String.eqb pin_options].
  destruct (String.eqb "clk" name); [reflexivity|].
  destruct (String.eqb "dt" name); reflexivity.
Qed.

Lemma getOptions_rotary_mode (name : string) :
  getOptions (Blocks.rotary_mode new_block) name
  = if String.eqb "mode" name
    then Some [("không giới hạn"," RotaryIRQ.RANGE_UNBOUNDED");
               ("reset khi quay tới max","RotaryIRQ.RANGE_WRAP");
               ("dừng tăng khi quay tới max","RotaryIRQ.RANGE_BOUNDED")]
    else None.
Proof.
  cbv -[String.eqb]. destruct (String.eqb "mode" name); reflexivity.
Qed.

Lemma option_values_plain (type : string) (shape : BlockShape)
    (name : string) (options : list (string * string)) (v : string) :
  getSchema type = Some shape ->
  getOptions shape name = Some options ->
  In v (map snd options) ->
  newline_free v /\ balanced v.
Proof.
  intros Hs Ho. revert v. apply Forall_forall.
  apply schema_cases in Hs.
  destruct Hs as [->|[->|[->|[->| ->]]]].
  - rewrite getOptions_initialise_rotary_encoder in Ho.
    destruct (String.eqb "clk" name);
      [|destruct (String.eqb "dt" name); [|discriminate]];
      injection Ho as <-; repeat constructor.
  - discriminate.
  - discriminate.
  - rewrite getOptions_rotary_mode in Ho.
    destruct (String.eqb "mode" name); [|discriminate].
    injection Ho as <-. repeat constructor.
  - discriminate.
Qed.

(** X14. A statement block that has dropdowns only (InitEncoder, SetMode) and
    fits its schema always yields one line with balanced brackets: no option
    of any dropdown carries a line break or a bracket. *)
Theorem valid_selection_single_line :
  forall (type : string) (shape : BlockShape) (emit : Emitter)
         (G : Generator) (block : Block),
    getSchema type = Some shape ->
    js_get Blockly_Python type = Some emit ->
    is_statement_kind type = true ->
    value_input_names shape = [] ->
    valid_selection shape block ->
    count_char "010" (code_of (snd (emit G block))) = 1 /\
    balanced (code_of (snd (emit G block))).
Proof.
  intros type shape emit G block Hs He Hk Hv V.
  destruct (kind_cases _ _ _ Hs He)
    as [(-> & -> & ->)|[(-> & -> & ->)|[(-> & -> & ->)|[(-> & -> & ->)|(-> & -> & ->)]]]];
    try discriminate.
  - destruct (V "clk") as (o1 & c & Ho1 & Hc & Hin1); [cbn; tauto|].
    destruct (V "dt") as (o2 & d & Ho2 & Hd & Hin2); [cbn; tauto|].
    destruct (option_values_plain _ _ _ _ _ Hs Ho1 Hin1) as [Nc Bc].
    destruct (option_values_plain _ _ _ _ _ Hs Ho2 Hin2) as [Nd Bd].
    cbn [code_of snd Python.initialise_rotary_encoder].
    rewrite Hc, Hd. cbn [js_str]. split.
    + rewrite !count_char_app, Nc, Nd. reflexivity.
    + unfold balanced. cbn [append paren_depth Ascii.eqb Bool.eqb].
      rewrite (paren_depth_balanced _ _ _ Bc).
      cbn [append paren_depth Ascii.eqb Bool.eqb].
      rewrite (paren_depth_balanced _ _ _ Bd). reflexivity.
  - destruct (V "mode") as (o & m & Ho & Hm & Hin); [cbn; tauto|].
    destruct (option_values_plain _ _ _ _ _ Hs Ho Hin) as [Nm Bm].
    cbn [code_of snd Python.rotary_mode].
    rewrite Hm. cbn [js_str]. split.
    + rewrite !count_char_app, Nm. reflexivity.
    + unfold balanced. cbn [append paren_depth Ascii.eqb Bool.eqb].
      rewrite (paren_depth_balanced _ _ _ Bm). reflexivity.
Qed.

Lemma valid_selection_single_line_witness :
  getSchema "initialise_rotary_encoder"
    = Some (Blocks.initialise_rotary_encoder new_block) /\
  is_statement_kind "initialise_rotary_encoder" = true /\
  value_input_names (Blocks.initialise_rotary_encoder new_block) = [] /\
  valid_selection (Blocks.initialise_rotary_encoder new_block) scenario_A /\
  count_char "010"
    (code_of (snd (Python.initialise_rotary_encoder G0 scenario_A))) = 1.
Proof.
  split; [reflexivity|]. split; [reflexivity|]. split; [reflexivity|].
  split; [exact scenario_A_valid|].
  exact (proj1 (valid_selection_single_line "initialise_rotary_encoder"
                  (Blocks.initialise_rotary_encoder new_block)
                  Python.initialise_rotary_encoder G0 scenario_A
                  eq_refl eq_refl eq_refl eq_refl scenario_A_valid)).
Defined.
